(** * Session store module [src/store/modules/user.js]

    A shallow embedding of the Vuex module [user] (state, mutations and the
    three actions [Login], [GetInfo], [Logout]) together with the fragment of
    the JavaScript runtime the actions rely on: JSON-like values, member
    reads, object spread, [Array.prototype.map], truthiness, exceptions and
    the [then]/[catch] chain of a promise.

    Objects are finite maps from property names to values ([gmap]); the API
    responses handled here are JSON payloads, so no value is a function. *)

From stdpp Require Import gmap strings list fin_maps pretty.
From Stdlib Require Import ZArith Lia.

Set Warnings "-register-all".
Open Scope Z_scope.

(** ** JavaScript values and exceptions *)

Module Js.

(** JSON-like values plus [undefined].  Numbers are integers: the module
    performs no arithmetic on response numbers other than [length > 0]. *)
Inductive value :=
| VUndef
| VNull
| VBool (b : bool)
| VNum (n : Z)
| VStr (s : string)
| VArr (items : list value)
| VObj (fields : gmap string value).

(** The [TypeError]s the runtime raises in the code paths of this module. *)
Inductive type_error :=
| NullishRead (member : string)      (* reading [member] of undefined/null *)
| NotAFunction (member : string)     (* calling [x.member] that is no function *)
| CannotCreateProperty (member : string). (* strict-mode write on a primitive *)

(** What can be thrown, or be the reason of a rejected promise. *)
Inductive thrown :=
| TypeError (why : type_error)
| Error (message : string)           (* [new Error(message)] *)
| Foreign (payload : value).         (* a rejection reason of a collaborator *)

Inductive result (A : Type) :=
| Ok (a : A)
| Throw (e : thrown).
Arguments Ok {A} a.
Arguments Throw {A} e.

#[global] Instance result_ret : MRet result := fun _ a => Ok a.
#[global] Instance result_bind : MBind result := fun _ _ f r =>
  match r with
  | Ok a => f a
  | Throw e => Throw e
  end.

Definition is_throw {A} (r : result A) : bool :=
  match r with Ok _ => false | Throw _ => true end.

(** ToBoolean. *)
Definition truthy (v : value) : bool :=
  match v with
  | VUndef | VNull => false
  | VBool b => b
  | VNum n => negb (n =? 0)
  | VStr s => negb (String.eqb s "")
  | VArr _ | VObj _ => true
  end.

(** [a || b]. *)
Definition js_or (a b : value) : value := if truthy a then a else b.

(** [v.key] for the property names this module reads ([result], [role],
    [permissions], [length], [token], [name], [avatar], [action],
    [actionEntitySet], [permissionId]): none of them is an array index or an
    inherited member other than [length].  The length of a string counts its
    characters; only whether it is zero is ever observed. *)
Definition get_member (v : value) (key : string) : result value :=
  match v with
  | VUndef | VNull => Throw (TypeError (NullishRead key))
  | VObj fields => Ok (default VUndef (fields !! key))
  | VArr items =>
      if String.eqb key "length" then Ok (VNum (Z.of_nat (length items)))
      else Ok VUndef
  | VStr s =>
      if String.eqb key "length" then Ok (VNum (Z.of_nat (String.length s)))
      else Ok VUndef
  | VBool _ | VNum _ => Ok VUndef
  end.

(** [v.key = x] in strict mode (an ES module), returning the updated object.
    Writing a named property on an array is not representable in [value];
    the array is returned as it is (the actions never do it, see
    [GetInfo_handler]). *)
Definition set_member (v : value) (key : string) (x : value) : result value :=
  match v with
  | VUndef | VNull => Throw (TypeError (NullishRead key))
  | VObj fields => Ok (VObj (<[key := x]> fields))
  | VArr items => Ok (VArr items)
  | VBool _ | VNum _ | VStr _ => Throw (TypeError (CannotCreateProperty key))
  end.

(** The own enumerable properties copied by an object spread [{ ...v }]. *)
Definition spread (v : value) : gmap string value :=
  match v with
  | VObj fields => fields
  | VArr items => list_to_map (imap (fun i x => (pretty i, x)) items)
  | VStr s =>
      list_to_map
        (imap (fun i c => (pretty i, VStr (String c EmptyString)))
              (String.list_ascii_of_string s))
  | VUndef | VNull | VBool _ | VNum _ => ∅
  end.

(** The callback of [map] runs on the elements from left to right; the first
    exception aborts the traversal. *)
Fixpoint map_items (f : value -> result value) (items : list value)
  : result (list value) :=
  match items with
  | [] => Ok []
  | x :: rest =>
      y ← f x;
      ys ← map_items f rest;
      mret (y :: ys)
  end.

(** [v.map(f)]: only arrays have a [map] method; on any other JSON value the
    member is undefined or not callable. *)
Definition call_map (v : value) (f : value -> result value) : result value :=
  match v with
  | VArr items => items' ← map_items f items; mret (VArr items')
  | VUndef | VNull => Throw (TypeError (NullishRead "map"))
  | VBool _ | VNum _ | VStr _ | VObj _ => Throw (TypeError (NotAFunction "map"))
  end.

End Js.

(** ** The expiring local cache ([store] with its [expire] plug-in) *)

Module Storage.
Import Js.

(** Modelled from the spec: the [store] package and its [expire] plug-in are
    not part of the sources; a cache entry is the stored value with its
    absolute expiry instant [expiresAtEpochMillis], one entry per key.  The
    degraded mode of an unavailable storage medium is left out. *)
Record entry := Entry { entry_value : value; expiresAt : Z }.

Abbreviation cache := (gmap string entry).

(** Modelled from the spec: [set(key, value, expiresAtEpochMillis)] of the
    absent [expire] plug-in overwrites any existing entry for [key]. *)
Definition set (key : string) (v : value) (expires : Z) (c : cache) : cache :=
  <[key := Entry v expires]> c.

(** Modelled from the spec: [get(key)] of the absent [expire] plug-in returns
    the stored value if [now < expiresAtEpochMillis]; otherwise it returns
    absent and removes the entry.  [now] is the clock reading of the call. *)
Definition get (now : Z) (key : string) (c : cache) : option value * cache :=
  match c !! key with
  | Some e =>
      if now <? expiresAt e then (Some (entry_value e), c)
      else (None, delete key c)
  | None => (None, c)
  end.

(** Modelled from the spec: [remove(key)] of the absent [store] package is
    idempotent; removing a key that is not there is not an error. *)
Definition remove (key : string) (c : cache) : cache := delete key c.

End Storage.

(** ** The store module *)

Module User.
Import Js.

(** [state] of the module. *)
Record SessionState := {
  token : value;
  name : value;
  welcome : value;
  avatar : value;
  roles : value;
  info : value
}.

(** The initial [state] literal. *)
Definition initial_state : SessionState :=
  {| token := VStr ""; name := VStr ""; welcome := VStr ""; avatar := VStr "";
     roles := VArr []; info := VObj ∅ |}.

Inductive mutation := SET_TOKEN | SET_NAME | SET_AVATAR | SET_ROLES | SET_INFO.

(** [mutations]: every handler is a plain assignment; [SET_NAME] first
    destructures its payload [{ name, welcome }]. *)
Definition mutations (m : mutation) (state : SessionState) (payload : value)
  : result SessionState :=
  match m with
  | SET_TOKEN =>
      Ok {| token := payload; name := name state; welcome := welcome state;
            avatar := avatar state; roles := roles state; info := info state |}
  | SET_NAME =>
      n ← get_member payload "name";
      w ← get_member payload "welcome";
      Ok {| token := token state; name := n; welcome := w;
            avatar := avatar state; roles := roles state; info := info state |}
  | SET_AVATAR =>
      Ok {| token := token state; name := name state; welcome := welcome state;
            avatar := payload; roles := roles state; info := info state |}
  | SET_ROLES =>
      Ok {| token := token state; name := name state; welcome := welcome state;
            avatar := avatar state; roles := payload; info := info state |}
  | SET_INFO =>
      Ok {| token := token state; name := name state; welcome := welcome state;
            avatar := avatar state; roles := roles state; info := payload |}
  end.

(** How the promise built by an action was settled: the calls made to the
    executor's [resolve] and [reject], in order.  Only the first call
    settles the promise. *)
Inductive settlement :=
| Resolved (v : value)
| Rejected (e : thrown).

Inductive promise_state :=
| Pending
| Settled (s : settlement).

Definition promise_of (calls : list settlement) : promise_state :=
  match calls with
  | [] => Pending
  | s :: _ => Settled s
  end.

(** What a run of an action touches: the module state, the persisted cache,
    the calls to [resolve]/[reject] of its promise and the console. *)
Record world := World {
  state : SessionState;
  storage : Storage.cache;
  settle_calls : list settlement;
  console : list thrown
}.

(** Handlers run in a state monad with exceptions.  An exception keeps the
    effects made before it: nothing is rolled back. *)
Definition M (A : Type) : Type := world -> result A * world.

#[global] Instance M_ret : MRet M := fun _ a w => (Ok a, w).
#[global] Instance M_bind : MBind M := fun _ _ f m w =>
  match m w with
  | (Ok a, w') => f a w'
  | (Throw e, w') => (Throw e, w')
  end.

Definition lift {A} (r : result A) : M A := fun w => (r, w).

(** [commit(type, payload)] runs the mutation synchronously. *)
Definition commit (m : mutation) (payload : value) : M unit := fun w =>
  match mutations m (state w) payload with
  | Ok s' => (Ok tt, World s' (storage w) (settle_calls w) (console w))
  | Throw e => (Throw e, w)
  end.

Definition storage_set (key : string) (v : value) (expires : Z) : M unit :=
  fun w => (Ok tt, World (state w) (Storage.set key v expires (storage w))
                         (settle_calls w) (console w)).

Definition storage_remove (key : string) : M unit :=
  fun w => (Ok tt, World (state w) (Storage.remove key (storage w))
                         (settle_calls w) (console w)).

Definition resolve (v : value) : M unit :=
  fun w => (Ok tt, World (state w) (storage w)
                         (settle_calls w ++ [Resolved v]) (console w)).

Definition reject (e : thrown) : M unit :=
  fun w => (Ok tt, World (state w) (storage w)
                         (settle_calls w ++ [Rejected e]) (console w)).

Definition console_log (e : thrown) : M unit :=
  fun w => (Ok tt, World (state w) (storage w) (settle_calls w)
                         (console w ++ [e])).

(** The promise a collaborator of the Auth API returns, once settled. *)
Inductive api_outcome :=
| Fulfilled (response : value)
| Failed (error : thrown).

(** [p.then(on_fulfilled).catch(on_rejected)]: [on_rejected] receives the
    rejection of [p] and also whatever [on_fulfilled] throws. *)
Definition then_catch (p : api_outcome)
    (on_fulfilled : value -> M unit) (on_rejected : thrown -> M unit) : M unit :=
  fun w =>
    match p with
    | Fulfilled response =>
        match on_fulfilled response w with
        | (Ok u, w') => (Ok u, w')
        | (Throw e, w') => on_rejected e w'
        end
    | Failed error => on_rejected error w
    end.

(** [new Promise(executor)] started from the current state and cache.  The
    collaborator's promise is taken as settled: no other action runs between
    the call and its handlers (the caller contract of the module). *)
Definition new_promise (executor : M unit) (s : SessionState)
    (c : Storage.cache) : world :=
  snd (executor (World s c [] [])).

Section Actions.

(** The key constant of [@/store/mutation-types]. *)
Variable ACCESS_TOKEN : string.

(** [v > 0] for an operand that is a string, an array or an object, as the
    runtime's ToPrimitive and ToNumber decide it. *)
Variable coerced_gt_zero : value -> result bool.

(** [v > 0]. *)
Definition gt_zero (v : value) : result bool :=
  match v with
  | VUndef | VNull => Ok false
  | VBool b => Ok b
  | VNum n => Ok (0 <? n)
  | VStr _ | VArr _ | VObj _ => coerced_gt_zero v
  end.

(** [Login]; [login] is the API call, [now] is [new Date().getTime()] as read
    when the response is handled. *)
Definition Login_handler (now : Z) (response : value) : M unit :=
  result ← lift (get_member response "result");
  tok ← lift (get_member result "token");
  storage_set ACCESS_TOKEN tok (now + 7 * 24 * 60 * 60 * 1000);;
  tok' ← lift (get_member result "token");
  commit SET_TOKEN tok';;
  resolve VUndef.

Definition Login (login : value -> api_outcome) (now : Z) (userInfo : value)
  : SessionState -> Storage.cache -> world :=
  new_promise (then_catch (login userInfo) (Login_handler now)
                          (fun error => reject error)).

(** The callback of [result.role.permissions.map] (lines 94-100). *)
Definition normalize_permission (permission : value) : result value :=
  let per := spread permission in
  actionEntitySet ← get_member permission "actionEntitySet";
  actionList ← call_map (js_or actionEntitySet (VObj ∅))
                        (fun item => get_member item "action");
  mret (VObj (<["actionList" := actionList]> per)).

(** The condition [result.role && result.role.permissions.length > 0]. *)
Definition has_permissions (result : value) : Js.result bool :=
  role ← get_member result "role";
  if truthy role then
    role ← get_member result "role";
    permissions ← get_member role "permissions";
    len ← get_member permissions "length";
    gt_zero len
  else mret false.

(** The body of the [if] up to [result.role = role] (lines 93-103): the
    normalized role and the response body carrying it. *)
Definition normalize (result : value) : Js.result (value * value) :=
  raw ← get_member result "role";
  let role := spread raw in
  raw ← get_member result "role";
  rawPermissions ← get_member raw "permissions";
  permissions ← call_map rawPermissions normalize_permission;
  let role := <["permissions" := permissions]> role in
  permissions ← get_member (VObj role) "permissions";
  permissionList ← call_map permissions
                     (fun permission => get_member permission "permissionId");
  let role := <["permissionList" := permissionList]> role in
  result ← set_member result "role" (VObj role);
  mret (VObj role, result).

(** [GetInfo]; [greeting] is what [welcome()] returns on this call. *)
Definition GetInfo_handler (greeting : string) (response : value) : M unit :=
  result ← lift (get_member response "result");
  ok ← lift (has_permissions result);
  if ok : bool then
    '(role, result) ← lift (normalize result);
    commit SET_ROLES role;;
    commit SET_INFO result;;
    name ← lift (get_member result "name");
    commit SET_NAME (VObj {[ "name" := name; "welcome" := VStr greeting ]});;
    avatar ← lift (get_member result "avatar");
    commit SET_AVATAR avatar;;
    resolve result
  else
    reject (Error "getInfo: roles must be a non-null array !").

Definition GetInfo (getInfo : api_outcome) (greeting : string)
  : SessionState -> Storage.cache -> world :=
  new_promise (then_catch getInfo (GetInfo_handler greeting)
                          (fun error => reject error)).

(** [Logout]; the executor reads [state.token] for the API call.  The
    rejection handler only logs, and [finally] has an empty body. *)
Definition Logout_handler (_ : value) : M unit :=
  commit SET_TOKEN (VStr "");;
  commit SET_ROLES (VArr []);;
  storage_remove ACCESS_TOKEN;;
  resolve VUndef.

Definition Logout (logout : value -> api_outcome)
  : SessionState -> Storage.cache -> world :=
  fun s c =>
    new_promise (then_catch (logout (token s)) Logout_handler
                            (fun err => console_log err)) s c.

End Actions.
End User.

(** ** Sample data

    The payloads of the scenarios used to exercise the actions. *)

Module Samples.
Import Js User.

(** The value of [ACCESS_TOKEN] used in the scenarios. *)
Definition key : string := "Access-Token".

(** A stand-in for the runtime's coercing comparison: the sample payloads
    never reach it. *)
Definition no_coercion (_ : value) : result bool := Ok false.

(** [{ result: { token: "T1" } }] *)
Definition login_response : value :=
  VObj {[ "result" := VObj {[ "token" := VStr "T1" ]} ]}.

(** [{ permissionId: "p1", actionEntitySet: [{ action: "read" }] }] *)
Definition permission_p1 : value :=
  VObj {[ "permissionId" := VStr "p1";
          "actionEntitySet" := VArr [VObj {[ "action" := VStr "read" ]}] ]}.

(** [{ permissionId: "p2" }]: no [actionEntitySet]. *)
Definition permission_p2 : value :=
  VObj {[ "permissionId" := VStr "p2" ]}.

(** The raw role [{ permissions: [...] }]. *)
Definition raw_role (permissions : list value) : value :=
  VObj {[ "permissions" := VArr permissions ]}.

(** A profile response [{ result: { name, avatar, role } }]. *)
Definition info_response (role : value) : value :=
  VObj {[ "result" :=
    VObj {[ "name" := VStr "alice"; "avatar" := VStr "/avatar.png";
            "role" := role ]} ]}.

(** A profile response without a role. *)
Definition info_response_no_role : value :=
  VObj {[ "result" := VObj {[ "name" := VStr "alice" ]} ]}.

(** A session after [Login] and [GetInfo]. *)
Definition logged_in : SessionState :=
  {| token := VStr "T1"; name := VStr "alice"; welcome := VStr "hello";
     avatar := VStr "/avatar.png"; roles := VObj {[ "id" := VStr "admin" ]};
     info := VObj {[ "name" := VStr "alice" ]} |}.

Definition logged_in_cache : Storage.cache :=
  Storage.set key (VStr "T1") 604801000 ∅.

End Samples.

(** ** Properties *)

Import Js User.

Section Properties.

Variable ACCESS_TOKEN : string.
Variable coerced_gt_zero : value -> result bool.

Local Abbreviation Login := (User.Login ACCESS_TOKEN).
Local Abbreviation Logout := (User.Logout ACCESS_TOKEN).
Local Abbreviation GetInfo := (User.GetInfo coerced_gt_zero).
Local Abbreviation has_permissions := (User.has_permissions coerced_gt_zero).

(** *** Running the handlers *)

Ltac run_bind := unfold mbind, M_bind, lift, mret, M_ret; cbn.

Lemma Login_handler_run (now : Z) (response result tok : value) (w : world) :
  get_member response "result" = Ok result ->
  get_member result "token" = Ok tok ->
  Login_handler ACCESS_TOKEN now response w =
  (Ok tt,
   World {| token := tok; name := name (state w); welcome := welcome (state w);
            avatar := avatar (state w); roles := roles (state w);
            info := info (state w) |}
         (Storage.set ACCESS_TOKEN tok (now + 7 * 24 * 60 * 60 * 1000) (storage w))
         (settle_calls w ++ [Resolved VUndef]) (console w)).
Proof.
  intros Hres Htok. unfold Login_handler. run_bind.
  rewrite Hres. cbn. rewrite Htok. reflexivity.
Qed.

(** *** Array traversal *)

Lemma map_items_Ok (f : value -> result value) (items items' : list value) :
  map_items f items = Ok items' ->
  Forall2 (fun x y => f x = Ok y) items items'.
Proof.
  revert items'. induction items as [| x rest IH]; intros items' H; cbn in H.
  - injection H as <-. constructor.
  - destruct (f x) as [y | e] eqn:Hx; cbn in H; [| discriminate].
    destruct (map_items f rest) as [ys | e] eqn:Hrest; cbn in H;
      [| discriminate].
    injection H as <-. constructor; auto.
Qed.

(** A traversal that throws stops at the first element whose callback
    throws, with that exception. *)
Lemma map_items_Throw (f : value -> result value) (items : list value)
    (e : thrown) :
  map_items f items = Throw e ->
  exists pre q post,
    items = pre ++ q :: post
    /\ Forall (fun x => is_throw (f x) = false) pre
    /\ f q = Throw e.
Proof.
  induction items as [| x rest IH]; intros H; cbn in H; [discriminate |].
  destruct (f x) as [y | e'] eqn:Hx; cbn in H.
  - destruct (map_items f rest) as [ys | e'] eqn:Hrest; cbn in H;
      [discriminate |].
    injection H as ->.
    destruct (IH eq_refl) as (pre & q & post & -> & Hpre & Hq).
    exists (x :: pre), q, post. repeat split; auto.
    constructor; [by rewrite Hx | done].
  - injection H as ->. exists [], x, rest. repeat split; auto.
Qed.

Lemma map_items_elem_throws (f : value -> result value) (items : list value)
    (x : value) :
  x ∈ items -> is_throw (f x) = true -> is_throw (map_items f items) = true.
Proof.
  induction 1 as [x rest | x y rest Hin IH]; intros Hx; cbn.
  - destruct (f x); [discriminate | reflexivity].
  - destruct (f y); cbn; [| reflexivity].
    specialize (IH Hx). destruct (map_items f rest); [discriminate | reflexivity].
Qed.

(** *** Login *)

(** C6: when the login request fails, [Login] rejects with exactly the API
    error, the whole [SessionState] keeps its value and the cache is not
    written (nothing is logged either). *)
Theorem Login_failure (login : value -> api_outcome) (now : Z)
    (userInfo : value) (s : SessionState) (c : Storage.cache) (e : thrown) :
  login userInfo = Failed e ->
  Login login now userInfo s c = World s c [Rejected e] [].
Proof.
  intros Hfail. unfold User.Login, new_promise, then_catch.
  rewrite Hfail. reflexivity.
Qed.

(** C5: a successful login whose response carries the token [tok] writes
    [tok] under [ACCESS_TOKEN] with expiry [now + 7 days] (604800000 ms),
    commits it as [state.token], leaves the other fields alone and resolves
    once with no payload; the cache then returns [tok] to a [get] at [now]. *)
Theorem Login_success (login : value -> api_outcome) (now : Z)
    (userInfo : value) (s : SessionState) (c : Storage.cache)
    (response result : value) (tok : string) :
  login userInfo = Fulfilled response ->
  get_member response "result" = Ok result ->
  get_member result "token" = Ok (VStr tok) ->
  let w := Login login now userInfo s c in
  storage w = Storage.set ACCESS_TOKEN (VStr tok) (now + 7 * 24 * 60 * 60 * 1000) c
  /\ storage w !! ACCESS_TOKEN = Some (Storage.Entry (VStr tok) (now + 604800000))
  /\ Storage.get now ACCESS_TOKEN (storage w) = (Some (VStr tok), storage w)
  /\ state w = {| token := VStr tok; name := name s; welcome := welcome s;
                  avatar := avatar s; roles := roles s; info := info s |}
  /\ settle_calls w = [Resolved VUndef]
  /\ console w = [].
Proof.
  intros Hok Hres Htok w. subst w.
  unfold User.Login, new_promise, then_catch. rewrite Hok.
  rewrite (Login_handler_run _ _ _ _ _ Hres Htok). cbn.
  repeat split.
  - unfold Storage.set. apply lookup_insert_eq.
  - unfold Storage.get, Storage.set. rewrite lookup_insert_eq. cbn.
    assert ((now <? now + 7 * 24 * 60 * 60 * 1000) = true) as ->
      by (apply Z.ltb_lt; lia).
    reflexivity.
Qed.

(** *** Logout *)

Lemma Logout_handler_run (response : value) (w : world) :
  Logout_handler ACCESS_TOKEN response w =
  (Ok tt,
   World {| token := VStr ""; name := name (state w);
            welcome := welcome (state w); avatar := avatar (state w);
            roles := VArr []; info := info (state w) |}
         (Storage.remove ACCESS_TOKEN (storage w))
         (settle_calls w ++ [Resolved VUndef]) (console w)).
Proof. reflexivity. Qed.

(** What [Logout] does, by the outcome of the network call. *)
Lemma Logout_run (logout : value -> api_outcome) (s : SessionState)
    (c : Storage.cache) :
  Logout logout s c =
  match logout (token s) with
  | Fulfilled _ =>
      World {| token := VStr ""; name := name s; welcome := welcome s;
               avatar := avatar s; roles := VArr []; info := info s |}
            (Storage.remove ACCESS_TOKEN c) [Resolved VUndef] []
  | Failed err => World s c [] [err]
  end.
Proof.
  unfold User.Logout, new_promise, then_catch.
  destruct (logout (token s)) as [response | err]; reflexivity.
Qed.

(** C1, as amended: when the logout call succeeds, [Logout] clears [token]
    to the empty string and [roles] to the empty array, removes the cache
    entry of [ACCESS_TOKEN] and resolves once with no payload.  When the
    call fails the error is only logged: the state and the cache are left as
    they were and the promise is neither resolved nor rejected. *)
Theorem Logout_by_network_outcome (logout : value -> api_outcome)
    (s : SessionState) (c : Storage.cache) :
  let w := Logout logout s c in
  match logout (token s) with
  | Fulfilled _ =>
      token (state w) = VStr "" /\ roles (state w) = VArr []
      /\ storage w = Storage.remove ACCESS_TOKEN c
      /\ storage w !! ACCESS_TOKEN = None
      /\ settle_calls w = [Resolved VUndef]
      /\ promise_of (settle_calls w) = Settled (Resolved VUndef)
      /\ console w = []
  | Failed err =>
      state w = s /\ storage w = c /\ settle_calls w = []
      /\ promise_of (settle_calls w) = Pending
      /\ console w = [err]
  end.
Proof.
  cbn zeta. rewrite Logout_run.
  destruct (logout (token s)) as [response | err]; cbn.
  - repeat split. apply lookup_delete_eq.
  - repeat split.
Qed.

(** C9: whatever the prior state and the outcome of the network call,
    [Logout] leaves [name], [avatar], [info] and [welcome] at their values
    before the call: the only fields it ever writes are [token] and
    [roles], which it clears when the network call succeeds and keeps
    otherwise. *)
Theorem Logout_frame (logout : value -> api_outcome) (s : SessionState)
    (c : Storage.cache) :
  let w := Logout logout s c in
  name (state w) = name s /\ avatar (state w) = avatar s
  /\ info (state w) = info s /\ welcome (state w) = welcome s
  /\ match logout (token s) with
     | Fulfilled _ => token (state w) = VStr "" /\ roles (state w) = VArr []
     | Failed _ => token (state w) = token s /\ roles (state w) = roles s
     end.
Proof.
  cbn zeta. rewrite Logout_run.
  destruct (logout (token s)); repeat split.
Qed.

(** *** Normalization of the role *)

Lemma normalize_permission_object (p q : value) :
  normalize_permission p = Ok q -> exists fields, q = VObj fields.
Proof.
  unfold normalize_permission. intros H.
  destruct (get_member p "actionEntitySet") as [a | e]; cbn in H;
    [| discriminate].
  destruct (call_map _ _) as [l | e]; cbn in H; [| discriminate].
  injection H as <-. eauto.
Qed.

(** A permission whose [actionEntitySet] is absent: [{}] has no [map]. *)
Lemma normalize_permission_absent (fields : gmap string value) :
  fields !! "actionEntitySet" = None ->
  normalize_permission (VObj fields) = Throw (TypeError (NotAFunction "map")).
Proof.
  intros H. unfold normalize_permission. cbn. rewrite H. reflexivity.
Qed.

(** A permission whose [actionEntitySet] is an array: [actionList] holds
    the [action] of every entity, in order. *)
Lemma normalize_permission_present (fields : gmap string value)
    (entities actions : list value) :
  fields !! "actionEntitySet" = Some (VArr entities) ->
  map_items (fun item => get_member item "action") entities = Ok actions ->
  normalize_permission (VObj fields)
  = Ok (VObj (<["actionList" := VArr actions]> fields)).
Proof.
  intros H Hmap. unfold normalize_permission. cbn. rewrite H. cbn.
  rewrite Hmap. reflexivity.
Qed.

(** Reading [permissionId] off normalized permissions never throws. *)
Lemma permissionId_of_normalized (perms perms' : list value) :
  map_items normalize_permission perms = Ok perms' ->
  exists ids,
    map_items (fun permission => get_member permission "permissionId") perms'
    = Ok ids.
Proof.
  intros H. apply map_items_Ok in H.
  induction H as [| p q perms perms' Hq _ IH]; [by exists [] |].
  destruct IH as (ids & Hids).
  destruct (normalize_permission_object _ _ Hq) as (fields & ->).
  eexists. cbn. rewrite Hids. reflexivity.
Qed.

(** The shape a response body must have for the permissions to be read. *)
Lemma role_with_permissions (result role : value) (perms : list value) :
  get_member result "role" = Ok role ->
  get_member role "permissions" = Ok (VArr perms) ->
  exists fields rf,
    result = VObj fields /\ role = VObj rf
    /\ fields !! "role" = Some (VObj rf)
    /\ rf !! "permissions" = Some (VArr perms).
Proof.
  intros Hrole Hperms.
  destruct role as [| | | | | |rf]; cbn in Hperms; try discriminate.
  destruct (rf !! "permissions") as [x |] eqn:Hp; cbn in Hperms;
    [| discriminate].
  injection Hperms as ->.
  destruct result as [| | | | | |fields]; cbn in Hrole; try discriminate.
  destruct (fields !! "role") as [x |] eqn:Hr; cbn in Hrole; [| discriminate].
  injection Hrole as ->. eauto 10.
Qed.

Lemma normalize_run (fields rf : gmap string value) (perms : list value) :
  fields !! "role" = Some (VObj rf) ->
  rf !! "permissions" = Some (VArr perms) ->
  match map_items normalize_permission perms with
  | Throw e => normalize (VObj fields) = Throw e
  | Ok perms' =>
      exists ids,
        map_items (fun permission => get_member permission "permissionId")
                  perms' = Ok ids
        /\ normalize (VObj fields)
           = Ok (VObj (<["permissionList" := VArr ids]>
                         (<["permissions" := VArr perms']> rf)),
                 VObj (<["role" :=
                           VObj (<["permissionList" := VArr ids]>
                                   (<["permissions" := VArr perms']> rf))]>
                         fields))
  end.
Proof.
  intros Hr Hp.
  destruct (map_items normalize_permission perms) as [perms' | e] eqn:Hmap.
  - destruct (permissionId_of_normalized _ _ Hmap) as (ids & Hids).
    exists ids. split; [exact Hids |].
    unfold normalize. cbn. rewrite Hr. cbn. rewrite Hp. cbn. rewrite Hmap.
    cbn. rewrite lookup_insert_eq. cbn. rewrite Hids. reflexivity.
  - unfold normalize. cbn. rewrite Hr. cbn. rewrite Hp. cbn. rewrite Hmap.
    reflexivity.
Qed.

(** *** The guard of GetInfo *)

Lemma has_permissions_falsy (result role : value) :
  get_member result "role" = Ok role -> truthy role = false ->
  has_permissions result = Ok false.
Proof.
  intros Hrole Hfalsy. unfold User.has_permissions. rewrite Hrole. cbn.
  rewrite Hfalsy. reflexivity.
Qed.

Lemma has_permissions_array (result role : value) (perms : list value) :
  get_member result "role" = Ok role -> truthy role = true ->
  get_member role "permissions" = Ok (VArr perms) ->
  has_permissions result = Ok (0 <? Z.of_nat (length perms)).
Proof.
  intros Hrole Htruthy Hperms. unfold User.has_permissions.
  rewrite Hrole. cbn. rewrite Htruthy, Hperms. reflexivity.
Qed.

(** *** Running GetInfo *)

Lemma GetInfo_invalid (greeting : string) (s : SessionState)
    (c : Storage.cache) (response result : value) :
  get_member response "result" = Ok result ->
  has_permissions result = Ok false ->
  GetInfo (Fulfilled response) greeting s c
  = World s c [Rejected (Error "getInfo: roles must be a non-null array !")] [].
Proof.
  intros Hres Hguard. unfold User.GetInfo, new_promise, then_catch.
  unfold GetInfo_handler. run_bind. rewrite Hres. cbn. rewrite Hguard.
  reflexivity.
Qed.

Lemma GetInfo_normalize_throws (greeting : string) (s : SessionState)
    (c : Storage.cache) (response result : value) (e : thrown) :
  get_member response "result" = Ok result ->
  has_permissions result = Ok true ->
  normalize result = Throw e ->
  GetInfo (Fulfilled response) greeting s c = World s c [Rejected e] [].
Proof.
  intros Hres Hguard Hnorm. unfold User.GetInfo, new_promise, then_catch.
  unfold GetInfo_handler. run_bind. rewrite Hres. cbn. rewrite Hguard. cbn.
  rewrite Hnorm. reflexivity.
Qed.

Lemma GetInfo_normalized (greeting : string) (s : SessionState)
    (c : Storage.cache) (response result role : value)
    (fields' : gmap string value) :
  get_member response "result" = Ok result ->
  has_permissions result = Ok true ->
  normalize result = Ok (role, VObj fields') ->
  GetInfo (Fulfilled response) greeting s c
  = World {| token := token s;
             name := default VUndef (fields' !! "name");
             welcome := VStr greeting;
             avatar := default VUndef (fields' !! "avatar");
             roles := role;
             info := VObj fields' |}
          c [Resolved (VObj fields')] [].
Proof.
  intros Hres Hguard Hnorm. unfold User.GetInfo, new_promise, then_catch.
  unfold GetInfo_handler. run_bind. rewrite Hres. cbn. rewrite Hguard. cbn.
  rewrite Hnorm. cbn. unfold commit. cbn. reflexivity.
Qed.

Lemma normalize_inv (result role result' : value) :
  normalize result = Ok (role, result') ->
  exists fields rf perms perms' ids,
    result = VObj fields
    /\ fields !! "role" = Some (VObj rf)
    /\ rf !! "permissions" = Some (VArr perms)
    /\ map_items normalize_permission perms = Ok perms'
    /\ map_items (fun permission => get_member permission "permissionId")
                 perms' = Ok ids
    /\ role = VObj (<["permissionList" := VArr ids]>
                      (<["permissions" := VArr perms']> rf))
    /\ result' = VObj (<["role" := role]> fields).
Proof.
  intros H.
  assert (exists raw perms,
             get_member result "role" = Ok raw
             /\ get_member raw "permissions" = Ok (VArr perms))
    as (raw & perms & Hraw & Hperms).
  { unfold normalize in H.
    destruct (get_member result "role") as [raw | e]; cbn in H;
      [| discriminate].
    destruct (get_member raw "permissions") as [rp | e] eqn:Hrp; cbn in H;
      [| discriminate].
    destruct rp; cbn in H; try discriminate. eauto. }
  destruct (role_with_permissions _ _ _ Hraw Hperms)
    as (fields & rf & -> & -> & Hr & Hp).
  pose proof (normalize_run fields rf perms Hr Hp) as Hrun.
  destruct (map_items normalize_permission perms) as [perms' | e] eqn:Hmap.
  - destruct Hrun as (ids & Hids & Hrun). rewrite Hrun in H.
    injection H as <- <-.
    exists fields, rf, perms, perms', ids. repeat split; assumption.
  - congruence.
Qed.

Lemma GetInfo_resolved_inv (getInfo : api_outcome) (greeting : string)
    (s : SessionState) (c : Storage.cache) (result' : value) :
  promise_of (settle_calls (GetInfo getInfo greeting s c))
  = Settled (Resolved result') ->
  exists response result role,
    getInfo = Fulfilled response
    /\ get_member response "result" = Ok result
    /\ has_permissions result = Ok true
    /\ normalize result = Ok (role, result').
Proof.
  destruct getInfo as [response | err]; [| discriminate].
  destruct (get_member response "result") as [result | e] eqn:Hres.
  2:{ unfold User.GetInfo, new_promise, then_catch, GetInfo_handler.
      run_bind. rewrite Hres. discriminate. }
  destruct (has_permissions result) as [[|] | e] eqn:Hguard.
  - destruct (normalize result) as [[role r'] | e] eqn:Hnorm.
    + destruct (normalize_inv _ _ _ Hnorm)
        as (fields & rf & perms & perms' & ids & _ & _ & _ & _ & _ & _ & Hr').
      pose proof Hnorm as Hnorm'. rewrite Hr' in Hnorm'.
      rewrite (GetInfo_normalized _ _ _ _ _ _ _ Hres Hguard Hnorm'). cbn.
      intros [= <-]. rewrite <- Hr'. eauto 10.
    + rewrite (GetInfo_normalize_throws _ _ _ _ _ _ Hres Hguard Hnorm).
      discriminate.
  - rewrite (GetInfo_invalid _ _ _ _ _ Hres Hguard). discriminate.
  - unfold User.GetInfo, new_promise, then_catch, GetInfo_handler.
    run_bind. rewrite Hres. cbn. rewrite Hguard. discriminate.
Qed.

(** *** GetInfo *)

(** C3: when the role of the response body is absent (undefined, null or any
    other falsy value) or its [permissions] is the empty array, [GetInfo]
    rejects with the validation error and neither a field of the state nor
    the cache changes: no empty permission set is committed. *)
Theorem GetInfo_rejects_without_permissions (greeting : string)
    (s : SessionState) (c : Storage.cache) (response result role : value) :
  get_member response "result" = Ok result ->
  get_member result "role" = Ok role ->
  truthy role = false \/ get_member role "permissions" = Ok (VArr []) ->
  GetInfo (Fulfilled response) greeting s c
  = World s c [Rejected (Error "getInfo: roles must be a non-null array !")] [].
Proof.
  intros Hres Hrole [Habsent | Hempty].
  - apply (GetInfo_invalid _ _ _ _ _ Hres).
    by apply has_permissions_falsy with role.
  - apply (GetInfo_invalid _ _ _ _ _ Hres).
    destruct (role_with_permissions _ _ _ Hrole Hempty)
      as (fields & rf & -> & -> & _ & _).
    by rewrite (has_permissions_array _ _ _ Hrole eq_refl Hempty).
Qed.

(** C4: when the role is present with a non-empty [permissions] array,
    either normalization throws, and then [GetInfo] rejects with that
    exception and the state and the cache are untouched, or it yields the
    normalized role and profile, and then [roles], [info], [name],
    [welcome] and [avatar] are all committed ([token] is kept) and the
    promise resolves once with the normalized profile, whose [role] is the
    normalized role. *)
Theorem GetInfo_all_or_nothing (greeting : string) (s : SessionState)
    (c : Storage.cache) (response result role p : value) (ps : list value) :
  get_member response "result" = Ok result ->
  get_member result "role" = Ok role ->
  get_member role "permissions" = Ok (VArr (p :: ps)) ->
  let w := GetInfo (Fulfilled response) greeting s c in
  match normalize result with
  | Throw e => w = World s c [Rejected e] []
  | Ok (role', result') =>
      get_member result' "role" = Ok role'
      /\ (exists n a,
            get_member result' "name" = Ok n
            /\ get_member result' "avatar" = Ok a
            /\ state w = {| token := token s; name := n;
                            welcome := VStr greeting; avatar := a;
                            roles := role'; info := result' |})
      /\ storage w = c
      /\ settle_calls w = [Resolved result']
      /\ console w = []
  end.
Proof.
  intros Hres Hrole Hperms w. subst w.
  destruct (role_with_permissions _ _ _ Hrole Hperms)
    as (fields & rf & -> & -> & Hr & Hp).
  pose proof (has_permissions_array _ _ _ Hrole eq_refl Hperms) as Hguard.
  change (0 <? Z.of_nat (length (p :: ps))) with true in Hguard.
  destruct (normalize (VObj fields)) as [[role' result'] | e] eqn:Hnorm.
  - destruct (normalize_inv _ _ _ Hnorm)
      as (fields0 & rf0 & perms & perms' & ids & _ & _ & _ & _ & _ & _ & ->).
    rewrite (GetInfo_normalized _ _ _ _ _ _ _ Hres Hguard Hnorm). cbn.
    rewrite lookup_insert_eq. repeat split. eauto.
  - apply (GetInfo_normalize_throws _ _ _ _ _ _ Hres Hguard Hnorm).
Qed.

(** C7: whenever [GetInfo] resolves, the committed role holds the
    normalized permissions under [permissions] and, under [permissionList],
    exactly [permissions.map(p => p.permissionId)]: one id per permission,
    in the order of [permissions].  For the raw role
    [{ permissions: [{ permissionId: "p1", actionEntitySet: [{ action: "read" }] }] }]
    the committed [permissionList] is [["p1"]] and the committed
    permission's [actionList] is [["read"]]. *)
Theorem GetInfo_permissionList :
  (forall (getInfo : api_outcome) (greeting : string) (s : SessionState)
          (c : Storage.cache) (result' : value),
      let w := GetInfo getInfo greeting s c in
      promise_of (settle_calls w) = Settled (Resolved result') ->
      exists (role' : gmap string value) (permissions ids : list value),
        roles (state w) = VObj role'
        /\ get_member result' "role" = Ok (VObj role')
        /\ role' !! "permissions" = Some (VArr permissions)
        /\ role' !! "permissionList" = Some (VArr ids)
        /\ map_items (fun permission => get_member permission "permissionId")
                     permissions = Ok ids
        /\ Forall2 (fun permission id =>
                      get_member permission "permissionId" = Ok id)
                   permissions ids)
  /\ (forall (greeting : string) (s : SessionState) (c : Storage.cache),
        let w := GetInfo (Fulfilled (Samples.info_response
                            (Samples.raw_role [Samples.permission_p1])))
                         greeting s c in
        exists (role' permission : gmap string value),
          roles (state w) = VObj role'
          /\ role' !! "permissionList" = Some (VArr [VStr "p1"])
          /\ role' !! "permissions" = Some (VArr [VObj permission])
          /\ permission !! "actionList" = Some (VArr [VStr "read"])).
Proof.
  split.
  - intros getInfo greeting s c result' w Hresolved. subst w.
    destruct (GetInfo_resolved_inv _ _ _ _ _ Hresolved)
      as (response & result & role & -> & Hres & Hguard & Hnorm).
    destruct (normalize_inv _ _ _ Hnorm)
      as (fields & rf & perms & perms' & ids & -> & Hr & Hp & Hmap & Hids
          & -> & ->).
    rewrite (GetInfo_normalized _ _ _ _ _ _ _ Hres Hguard Hnorm). cbn.
    eexists _, perms', ids. split; [reflexivity |].
    rewrite !lookup_insert_eq.
    rewrite lookup_insert_ne by done. rewrite lookup_insert_eq.
    repeat split; try done. by apply map_items_Ok.
  - intros greeting s c. cbn zeta. eexists _, _. cbn.
    split; [reflexivity |]. repeat split; reflexivity.
Qed.

(** A traversal whose elements before [q] all succeed throws what the
    callback throws on [q]. *)
Lemma map_items_first_throw (f : value -> result value)
    (pre post : list value) (q : value) (e : thrown) :
  Forall (fun x => is_throw (f x) = false) pre ->
  f q = Throw e ->
  map_items f (pre ++ q :: post) = Throw e.
Proof.
  intros Hpre Hq. induction Hpre as [| x pre Hx _ IH]; cbn.
  - by rewrite Hq.
  - destruct (f x); [| discriminate]. cbn. by rewrite IH.
Qed.

(** C10: when the role is present and one permission of its non-empty
    [permissions] array is an object without [actionEntitySet],
    normalizing that permission throws the TypeError of calling [map] on
    [{}]; [GetInfo] rejects with the exception of the first permission whose
    normalization throws, which is that TypeError when every permission
    before the one without [actionEntitySet] normalizes; the state and the
    cache are untouched, so nothing is committed. *)
Theorem GetInfo_rejects_on_missing_actionEntitySet (greeting : string)
    (s : SessionState) (c : Storage.cache) (response result role : value)
    (pre post : list value) (fields : gmap string value) :
  get_member response "result" = Ok result ->
  get_member result "role" = Ok role ->
  get_member role "permissions" = Ok (VArr (pre ++ VObj fields :: post)) ->
  fields !! "actionEntitySet" = None ->
  let w := GetInfo (Fulfilled response) greeting s c in
  normalize_permission (VObj fields) = Throw (TypeError (NotAFunction "map"))
  /\ (exists e before q after,
        w = World s c [Rejected e] []
        /\ pre ++ VObj fields :: post = before ++ q :: after
        /\ Forall (fun x => is_throw (normalize_permission x) = false) before
        /\ normalize_permission q = Throw e)
  /\ (Forall (fun x => is_throw (normalize_permission x) = false) pre ->
      w = World s c [Rejected (TypeError (NotAFunction "map"))] []).
Proof.
  intros Hres Hrole Hperms Habsent w. subst w.
  pose proof (normalize_permission_absent _ Habsent) as Hthrow.
  destruct (role_with_permissions _ _ _ Hrole Hperms)
    as (fields0 & rf & -> & -> & Hr & Hp).
  pose proof (has_permissions_array _ _ _ Hrole eq_refl Hperms) as Hguard.
  assert ((0 <? Z.of_nat (length (pre ++ VObj fields :: post))) = true)
    as Hlen by (apply Z.ltb_lt; rewrite length_app; cbn; lia).
  rewrite Hlen in Hguard.
  pose proof (normalize_run _ _ _ Hr Hp) as Hrun.
  split; [exact Hthrow | split].
  - destruct (map_items normalize_permission (pre ++ VObj fields :: post))
      as [perms' | e] eqn:Hmap.
    + assert (is_throw (map_items normalize_permission
                          (pre ++ VObj fields :: post)) = true) as Hall.
      { apply map_items_elem_throws with (VObj fields).
        - apply elem_of_app. right. constructor.
        - by rewrite Hthrow. }
      rewrite Hmap in Hall. discriminate.
    + destruct (map_items_Throw _ _ _ Hmap)
        as (before & q & after & Hsplit & Hbefore & Hq).
      exists e, before, q, after. repeat split; try assumption.
      apply (GetInfo_normalize_throws _ _ _ _ _ _ Hres Hguard Hrun).
  - intros Hpre.
    rewrite (map_items_first_throw _ _ _ _ _ Hpre Hthrow) in Hrun.
    apply (GetInfo_normalize_throws _ _ _ _ _ _ Hres Hguard Hrun).
Qed.

(** C2, at a permission without [actionEntitySet]: the fallback of
    [permission.actionEntitySet || {}] is an object, which has no [map];
    normalization throws instead of giving an empty [actionList], and
    [GetInfo] rejects with that TypeError. *)
Theorem GetInfo_absent_actionEntitySet_throws (greeting : string)
    (s : SessionState) (c : Storage.cache) :
  normalize_permission Samples.permission_p2
  = Throw (TypeError (NotAFunction "map"))
  /\ GetInfo (Fulfilled (Samples.info_response
                (Samples.raw_role [Samples.permission_p2]))) greeting s c
     = World s c [Rejected (TypeError (NotAFunction "map"))] [].
Proof. split; reflexivity. Qed.

(** *** The expiring cache *)

(** C8: [get] returns a value exactly when the key has an entry holding
    that value whose expiry instant is strictly after the clock reading of
    the call, and then the cache is unchanged; on an entry whose expiry
    instant has been reached it returns absent and deletes the entry, so
    every later [get] returns absent as well; in particular a value [set]
    with an instant that is not in the future is never returned. *)
Theorem get_respects_expiry (now : Z) (key : string) (c : Storage.cache) :
  (forall v,
      (Storage.get now key c).1 = Some v <->
      exists e, c !! key = Some e /\ Storage.entry_value e = v
                /\ now < Storage.expiresAt e)
  /\ (forall v, (Storage.get now key c).1 = Some v ->
                (Storage.get now key c).2 = c)
  /\ (forall e, c !! key = Some e -> Storage.expiresAt e <= now ->
        Storage.get now key c = (None, delete key c)
        /\ (Storage.get now key c).2 !! key = None
        /\ forall later,
             (Storage.get later key (Storage.get now key c).2).1 = None)
  /\ (forall v instant, instant <= now ->
        let c' := Storage.set key v instant c in
        (Storage.get now key c').1 = None
        /\ forall later,
             (Storage.get later key (Storage.get now key c').2).1 = None).
Proof.
  assert (forall (d : Storage.cache) e, d !! key = Some e ->
            Storage.expiresAt e <= now ->
            Storage.get now key d = (None, delete key d)) as Hexpired.
  { intros d e He Hle. unfold Storage.get. rewrite He.
    destruct (Z.ltb_spec now (Storage.expiresAt e)); [lia | reflexivity]. }
  assert (forall (d : Storage.cache) later,
            (Storage.get later key (delete key d)).1 = None) as Hgone.
  { intros d later. unfold Storage.get. by rewrite lookup_delete_eq. }
  repeat split.
  - unfold Storage.get. destruct (c !! key) as [e |]; [| discriminate].
    destruct (Z.ltb_spec now (Storage.expiresAt e)); [| discriminate].
    cbn. intros [= <-]. eauto.
  - intros (e & He & <- & Hlt). unfold Storage.get. rewrite He.
    destruct (Z.ltb_spec now (Storage.expiresAt e)); [reflexivity | lia].
  - intros v. unfold Storage.get. destruct (c !! key) as [e |]; [| done].
    destruct (Z.ltb_spec now (Storage.expiresAt e)); [done | discriminate].
  - eauto.
  - rewrite (Hexpired c e) by assumption. cbn. apply lookup_delete_eq.
  - intros later. rewrite (Hexpired c e) by assumption. apply Hgone.
  - rewrite (Hexpired _ (Storage.Entry v instant)); [done | | done].
    unfold Storage.set. apply lookup_insert_eq.
  - intros later.
    rewrite (Hexpired _ (Storage.Entry v instant)); [apply Hgone | | done].
    unfold Storage.set. apply lookup_insert_eq.
Qed.

(** *** Login on every path *)

(** What [Login] does, by the outcome of the API call and the shape of the
    response. *)
Lemma Login_run (login : value -> api_outcome) (now : Z) (userInfo : value)
    (s : SessionState) (c : Storage.cache) :
  Login login now userInfo s c =
  match login userInfo with
  | Failed e => World s c [Rejected e] []
  | Fulfilled response =>
      match get_member response "result" with
      | Throw e => World s c [Rejected e] []
      | Ok result =>
          match get_member result "token" with
          | Throw e => World s c [Rejected e] []
          | Ok tok =>
              World {| token := tok; name := name s; welcome := welcome s;
                       avatar := avatar s; roles := roles s; info := info s |}
                    (Storage.set ACCESS_TOKEN tok
                                 (now + 7 * 24 * 60 * 60 * 1000) c)
                    [Resolved VUndef] []
          end
      end
  end.
Proof.
  unfold User.Login, new_promise, then_catch.
  destruct (login userInfo) as [response | e]; [| reflexivity].
  destruct (get_member response "result") as [result | e] eqn:Hres.
  - destruct (get_member result "token") as [tok | e] eqn:Htok.
    + by rewrite (Login_handler_run _ _ _ _ _ Hres Htok).
    + unfold Login_handler. run_bind. rewrite Hres. cbn. by rewrite Htok.
  - unfold Login_handler. run_bind. by rewrite Hres.
Qed.


(** X2: [Login] never writes [name], [welcome], [avatar], [roles] or
    [info], and never touches a cache key other than [ACCESS_TOKEN],
    whatever the outcome of the API call. *)
Theorem Login_frame (login : value -> api_outcome) (now : Z)
    (userInfo : value) (s : SessionState) (c : Storage.cache) :
  let w := Login login now userInfo s c in
  name (state w) = name s /\ welcome (state w) = welcome s
  /\ avatar (state w) = avatar s /\ roles (state w) = roles s
  /\ info (state w) = info s
  /\ forall key, key <> ACCESS_TOKEN -> storage w !! key = c !! key.
Proof.
  cbn zeta. rewrite Login_run.
  destruct (login userInfo) as [response | e]; [| by repeat split].
  destruct (get_member response "result") as [result | e];
    [| by repeat split].
  destruct (get_member result "token") as [tok | e]; [| by repeat split].
  cbn. repeat split. intros key Hkey. unfold Storage.set.
  by rewrite lookup_insert_ne.
Qed.

(** X3: a fulfilled login whose response has no [result] body (absent or
    null) rejects with the TypeError of reading [token] off it; the cache
    is not written and the state is not changed. *)
Theorem Login_response_without_result (login : value -> api_outcome)
    (now : Z) (userInfo : value) (s : SessionState) (c : Storage.cache)
    (response result : value) :
  login userInfo = Fulfilled response ->
  get_member response "result" = Ok result ->
  result = VUndef \/ result = VNull ->
  Login login now userInfo s c
  = World s c [Rejected (TypeError (NullishRead "token"))] [].
Proof.
  intros Hok Hres Hnullish. rewrite Login_run, Hok, Hres.
  by destruct Hnullish as [-> | ->].
Qed.

(** *** GetInfo on every path *)

Lemma map_items_Forall2 (f : value -> result value) (items items' : list value) :
  Forall2 (fun x y => f x = Ok y) items items' ->
  map_items f items = Ok items'.
Proof.
  induction 1 as [| x y items items' Hx _ IH]; [reflexivity |].
  cbn. rewrite Hx. cbn. by rewrite IH.
Qed.

Lemma map_items_no_throw (f : value -> result value) (items : list value) :
  Forall (fun x => is_throw (f x) = false) items ->
  exists items', map_items f items = Ok items'.
Proof.
  induction 1 as [| x items Hx _ (items' & IH)]; [by exists [] |].
  destruct (f x) as [y |] eqn:Hy; [| discriminate].
  exists (y :: items'). cbn. rewrite Hy. cbn. by rewrite IH.
Qed.

Lemma GetInfo_no_result (greeting : string) (s : SessionState)
    (c : Storage.cache) (response : value) (e : thrown) :
  get_member response "result" = Throw e ->
  GetInfo (Fulfilled response) greeting s c = World s c [Rejected e] [].
Proof.
  intros Hres. unfold User.GetInfo, new_promise, then_catch, GetInfo_handler.
  run_bind. by rewrite Hres.
Qed.

Lemma GetInfo_guard_throws (greeting : string) (s : SessionState)
    (c : Storage.cache) (response result : value) (e : thrown) :
  get_member response "result" = Ok result ->
  has_permissions result = Throw e ->
  GetInfo (Fulfilled response) greeting s c = World s c [Rejected e] [].
Proof.
  intros Hres Hguard.
  unfold User.GetInfo, new_promise, then_catch, GetInfo_handler.
  run_bind. rewrite Hres. cbn. by rewrite Hguard.
Qed.

(** X4: on every outcome of the API call and every response, [GetInfo]
    calls exactly one of [resolve] and [reject], once, never writes [token]
    or the cache and logs nothing.  An API failure is passed on as it is.
    Otherwise it either rejects with the whole state as before, or resolves
    with the response body after committing it as [info], its [role] as
    [roles], its [name] and [avatar], and the greeting as [welcome]: no run
    commits only some of the five. *)
Theorem GetInfo_settles_once (getInfo : api_outcome) (greeting : string)
    (s : SessionState) (c : Storage.cache) :
  let w := GetInfo getInfo greeting s c in
  match getInfo with
  | Failed e => w = World s c [Rejected e] []
  | Fulfilled _ =>
      (exists e, w = World s c [Rejected e] [])
      \/ (exists role fields' : gmap string value,
            fields' !! "role" = Some (VObj role)
            /\ w = World {| token := token s;
                            name := default VUndef (fields' !! "name");
                            welcome := VStr greeting;
                            avatar := default VUndef (fields' !! "avatar");
                            roles := VObj role;
                            info := VObj fields' |}
                         c [Resolved (VObj fields')] [])
  end.
Proof.
  cbn zeta. destruct getInfo as [response | e]; [| reflexivity].
  destruct (get_member response "result") as [result | e] eqn:Hres.
  2:{ left. exists e. by apply GetInfo_no_result. }
  destruct (has_permissions result) as [[|] | e] eqn:Hguard.
  - destruct (normalize result) as [[role r'] | e] eqn:Hnorm.
    + destruct (normalize_inv _ _ _ Hnorm)
        as (fields & rf & perms & perms' & ids & _ & _ & _ & _ & _ & Hrole
            & Hr').
      right. rewrite Hr' in Hnorm.
      rewrite (GetInfo_normalized _ _ _ _ _ _ _ Hres Hguard Hnorm).
      rewrite Hrole. eexists _, _. split; [| reflexivity].
      apply lookup_insert_eq.
    + left. exists e. by apply GetInfo_normalize_throws with result.
  - left. eexists. by apply GetInfo_invalid with result.
  - left. exists e. by apply GetInfo_guard_throws with result.
Qed.

(** X5: a role that is present but carries no [permissions] (absent or
    null) does not reach the validation error: reading [length] off the
    missing collection throws, and [GetInfo] rejects with that TypeError,
    the state and the cache unchanged. *)
Theorem GetInfo_role_without_permissions (greeting : string)
    (s : SessionState) (c : Storage.cache) (response result permissions : value)
    (rf : gmap string value) :
  get_member response "result" = Ok result ->
  get_member result "role" = Ok (VObj rf) ->
  get_member (VObj rf) "permissions" = Ok permissions ->
  permissions = VUndef \/ permissions = VNull ->
  GetInfo (Fulfilled response) greeting s c
  = World s c [Rejected (TypeError (NullishRead "length"))] [].
Proof.
  intros Hres Hrole Hperms Hnullish.
  apply GetInfo_guard_throws with result; [assumption |].
  unfold User.has_permissions. rewrite Hrole. cbn -[get_member].
  rewrite Hperms. by destruct Hnullish as [-> | ->].
Qed.

(** *** Normalization in detail *)

(** Reading [action] off an entity throws exactly on undefined and null. *)
Lemma action_of_entities (entities : list value) :
  Forall (fun entity => entity <> VUndef /\ entity <> VNull) entities <->
  exists actions,
    Forall2 (fun entity action => get_member entity "action" = Ok action)
            entities actions.
Proof.
  split.
  - induction 1 as [| x entities [Hu Hn] _ (actions & IH)]; [by exists [] |].
    destruct (get_member x "action") as [a | e] eqn:Ha.
    + exists (a :: actions). by constructor.
    + destruct x; try discriminate; done.
  - intros (actions & H).
    induction H as [| x a entities actions Hx _ IH]; constructor; [| done].
    by destruct x.
Qed.

(** X6: normalizing a permission succeeds exactly when its
    [actionEntitySet] is an array (possibly empty) whose entities are all
    different from undefined and null.  The normalized permission is then
    the raw one with [actionList] set, or overwritten, to the entities'
    [action] values, one per entity and in the same order; every other raw
    field is kept. *)
Theorem normalize_permission_spec (permission normalized : value) :
  normalize_permission permission = Ok normalized <->
  exists entities actions,
    get_member permission "actionEntitySet" = Ok (VArr entities)
    /\ Forall2 (fun entity action => get_member entity "action" = Ok action)
               entities actions
    /\ normalized = VObj (<["actionList" := VArr actions]> (spread permission)).
Proof.
  unfold normalize_permission. split.
  - intros H.
    destruct (get_member permission "actionEntitySet") as [a | e] eqn:Ha;
      cbn in H; [| discriminate].
    unfold js_or in H.
    destruct a as [| | [|] | n | str | entities | o]; cbn in H;
      try discriminate.
    + destruct (n =? 0); discriminate.
    + destruct (String.eqb str ""); discriminate.
    + destruct (map_items _ entities) as [actions | e] eqn:Hmap; cbn in H;
        [| discriminate].
      injection H as <-. exists entities, actions.
      repeat split. by apply map_items_Ok.
  - intros (entities & actions & Ha & Hactions & ->).
    rewrite Ha. cbn. by rewrite (map_items_Forall2 _ _ _ Hactions).
Qed.

Lemma normalize_permission_succeeds (permission : value) :
  is_throw (normalize_permission permission) = false <->
  exists entities,
    get_member permission "actionEntitySet" = Ok (VArr entities)
    /\ Forall (fun entity => entity <> VUndef /\ entity <> VNull) entities.
Proof.
  unfold normalize_permission. split.
  - intros H.
    destruct (get_member permission "actionEntitySet") as [a | e] eqn:Ha;
      cbn in H; [| discriminate].
    unfold js_or in H.
    destruct a as [| | [|] | n | str | entities | o]; cbn in H;
      try discriminate.
    + destruct (n =? 0); discriminate.
    + destruct (String.eqb str ""); discriminate.
    + exists entities. split; [reflexivity |].
      apply action_of_entities.
      destruct (map_items _ entities) as [actions | e] eqn:Hmap; cbn in H;
        [| discriminate].
      exists actions. by apply map_items_Ok.
  - intros (entities & Ha & Hentities). rewrite Ha. cbn.
    apply action_of_entities in Hentities as (actions & Hactions).
    by rewrite (map_items_Forall2 _ _ _ Hactions).
Qed.

(** X7: [GetInfo] resolves exactly when the response body is an object
    whose [role] is an object whose [permissions] is a non-empty array in
    which every permission has an array [actionEntitySet] without undefined
    or null entities.  On any other fulfilled response it rejects. *)
Theorem GetInfo_resolves_iff (greeting : string) (s : SessionState)
    (c : Storage.cache) (response : value) :
  (exists v, promise_of (settle_calls (GetInfo (Fulfilled response) greeting s c))
             = Settled (Resolved v))
  <->
  (exists (fields rf : gmap string value) (perms : list value),
      get_member response "result" = Ok (VObj fields)
      /\ fields !! "role" = Some (VObj rf)
      /\ rf !! "permissions" = Some (VArr perms)
      /\ perms <> []
      /\ Forall (fun permission =>
                   exists entities,
                     get_member permission "actionEntitySet"
                     = Ok (VArr entities)
                     /\ Forall (fun entity =>
                                  entity <> VUndef /\ entity <> VNull)
                               entities)
                perms).
Proof.
  split.
  - intros (v & Hresolved).
    destruct (GetInfo_resolved_inv _ _ _ _ _ Hresolved)
      as (response' & result & role & [= <-] & Hres & Hguard & Hnorm).
    destruct (normalize_inv _ _ _ Hnorm)
      as (fields & rf & perms & perms' & ids & -> & Hr & Hp & Hmap & _).
    exists fields, rf, perms. repeat split; try assumption.
    + intros ->.
      rewrite (has_permissions_array (VObj fields) (VObj rf) []) in Hguard;
        [discriminate | | reflexivity |]; cbn; by rewrite ?Hr, ?Hp.
    + apply map_items_Ok in Hmap. clear -Hmap.
      induction Hmap as [| x y perms perms' Hx _ IH]; constructor; [| done].
      apply normalize_permission_succeeds. by rewrite Hx.
  - intros (fields & rf & perms & Hres & Hr & Hp & Hne & Hall).
    assert (has_permissions (VObj fields) = Ok true) as Hguard.
    { rewrite (has_permissions_array (VObj fields) (VObj rf) perms);
        [| cbn; by rewrite ?Hr, ?Hp ..].
      f_equal. apply Z.ltb_lt. destruct perms; [done | cbn; lia]. }
    assert (Forall (fun x => is_throw (normalize_permission x) = false) perms)
      as Hok.
    { eapply Forall_impl; [exact Hall |]. intros x Hx.
      by apply normalize_permission_succeeds. }
    destruct (map_items_no_throw _ _ Hok) as (perms' & Hmap).
    pose proof (normalize_run _ _ _ Hr Hp) as Hrun. rewrite Hmap in Hrun.
    destruct Hrun as (ids & _ & Hrun).
    rewrite (GetInfo_normalized _ _ _ _ _ _ _ Hres Hguard Hrun). cbn. eauto.
Qed.

(** X8: when [GetInfo] resolves, the profile it resolves with is the one
    committed as [info], and its [role] is the one committed as [roles].
    Normalization only rewrites [role] in the response body, and only
    [permissions] and [permissionList] in the role: every other field of the
    raw body and of the raw role reads the same afterwards. *)
Theorem GetInfo_keeps_raw_fields (greeting : string) (s : SessionState)
    (c : Storage.cache) (response v : value) :
  let w := GetInfo (Fulfilled response) greeting s c in
  promise_of (settle_calls w) = Settled (Resolved v) ->
  exists result raw,
    get_member response "result" = Ok result
    /\ get_member result "role" = Ok raw
    /\ info (state w) = v
    /\ get_member v "role" = Ok (roles (state w))
    /\ (forall key, key <> "role" ->
          get_member v key = get_member result key)
    /\ (forall key, key <> "permissions" -> key <> "permissionList" ->
          get_member (roles (state w)) key = get_member raw key).
Proof.
  intros w Hresolved. subst w.
  destruct (GetInfo_resolved_inv _ _ _ _ _ Hresolved)
    as (response' & result & role & [= <-] & Hres & Hguard & Hnorm).
  destruct (normalize_inv _ _ _ Hnorm)
    as (fields & rf & perms & perms' & ids & -> & Hr & Hp & Hmap & Hids
        & -> & ->).
  rewrite (GetInfo_normalized _ _ _ _ _ _ _ Hres Hguard Hnorm).
  exists (VObj fields), (VObj rf). cbn. rewrite Hr, lookup_insert_eq.
  repeat split; try assumption.
  - intros key Hkey. by rewrite lookup_insert_ne.
  - intros key Hp' Hl. by rewrite !lookup_insert_ne.
Qed.

(** X9: when [GetInfo] resolves, the committed [permissions] are the raw
    permissions normalized one by one: as many as the raw ones and in their
    order; [permissionList] has that length too. *)
Theorem GetInfo_permissions_pointwise (greeting : string) (s : SessionState)
    (c : Storage.cache) (response v : value) :
  let w := GetInfo (Fulfilled response) greeting s c in
  promise_of (settle_calls w) = Settled (Resolved v) ->
  exists result raw (rawPermissions permissions ids : list value),
    get_member response "result" = Ok result
    /\ get_member result "role" = Ok raw
    /\ get_member raw "permissions" = Ok (VArr rawPermissions)
    /\ get_member (roles (state w)) "permissions" = Ok (VArr permissions)
    /\ get_member (roles (state w)) "permissionList" = Ok (VArr ids)
    /\ Forall2 (fun rawPermission permission =>
                  normalize_permission rawPermission = Ok permission)
               rawPermissions permissions
    /\ length permissions = length rawPermissions
    /\ length ids = length rawPermissions.
Proof.
  intros w Hresolved. subst w.
  destruct (GetInfo_resolved_inv _ _ _ _ _ Hresolved)
    as (response' & result & role & [= <-] & Hres & Hguard & Hnorm).
  destruct (normalize_inv _ _ _ Hnorm)
    as (fields & rf & perms & perms' & ids & -> & Hr & Hp & Hmap & Hids
        & -> & ->).
  rewrite (GetInfo_normalized _ _ _ _ _ _ _ Hres Hguard Hnorm).
  apply map_items_Ok in Hmap. apply map_items_Ok in Hids.
  pose proof (Forall2_length _ _ _ Hmap) as Hlen.
  pose proof (Forall2_length _ _ _ Hids) as Hlen'.
  exists (VObj fields), (VObj rf), perms, perms', ids. cbn.
  rewrite Hr, Hp, lookup_insert_eq.
  rewrite lookup_insert_ne by done. rewrite lookup_insert_eq.
  repeat split; try done. congruence.
Qed.

(** A normalized permission normalizes to itself. *)
Lemma normalize_permission_idempotent (permission normalized : value) :
  normalize_permission permission = Ok normalized ->
  normalize_permission normalized = Ok normalized.
Proof.
  unfold normalize_permission. intros H.
  destruct (get_member permission "actionEntitySet") as [a | e] eqn:Ha;
    cbn in H; [| discriminate].
  unfold js_or in H.
  destruct a as [| | [|] | n | str | entities | o]; cbn in H;
    try discriminate.
  - destruct (n =? 0); discriminate.
  - destruct (String.eqb str ""); discriminate.
  - destruct (map_items _ entities) as [actions | e] eqn:Hmap; cbn in H;
      [| discriminate].
    injection H as <-.
    destruct permission as [| | | | | |pf]; cbn in Ha; try discriminate;
      try (destruct (String.eqb _ _); discriminate).
    cbn. rewrite lookup_insert_ne by done.
    destruct (pf !! "actionEntitySet") as [x |]; cbn in Ha; [| discriminate].
    injection Ha as ->. cbn. rewrite Hmap. cbn.
    by rewrite insert_insert_eq.
Qed.

(** X10: normalization is idempotent.  [GetInfo] writes the normalized role
    back into the response body; when a run resolved with the profile [v],
    a later run whose response carries [v] as its body resolves with [v]
    again and commits the same [roles] and [info]. *)
Theorem GetInfo_renormalizes_to_same (greeting greeting' : string)
    (s s' : SessionState) (c c' : Storage.cache) (response response' v : value) :
  let w := GetInfo (Fulfilled response) greeting s c in
  promise_of (settle_calls w) = Settled (Resolved v) ->
  get_member response' "result" = Ok v ->
  let w' := GetInfo (Fulfilled response') greeting' s' c' in
  settle_calls w' = [Resolved v]
  /\ roles (state w') = roles (state w)
  /\ info (state w') = info (state w).
Proof.
  intros w Hresolved Hres' w'. subst w w'.
  destruct (GetInfo_resolved_inv _ _ _ _ _ Hresolved)
    as (response0 & result & role & [= <-] & Hres & Hguard & Hnorm).
  destruct (normalize_inv _ _ _ Hnorm)
    as (fields & rf & perms & perms' & ids & -> & Hr & Hp & Hmap & Hids
        & Hrole & Hv).
  rewrite Hv in Hnorm.
  rewrite (GetInfo_normalized _ _ _ _ _ _ _ Hres Hguard Hnorm). cbn.
  set (role' := <["permissionList" := VArr ids]>
                  (<["permissions" := VArr perms']> rf)) in *.
  assert (role' !! "permissions" = Some (VArr perms')) as Hp'.
  { unfold role'. rewrite lookup_insert_ne by done. apply lookup_insert_eq. }
  assert (role' !! "permissionList" = Some (VArr ids)) as Hl'.
  { unfold role'. apply lookup_insert_eq. }
  assert (<["role" := role]> fields !! "role" = Some (VObj role')) as Hr'.
  { rewrite Hrole. apply lookup_insert_eq. }
  assert (map_items normalize_permission perms' = Ok perms') as Hmap'.
  { apply map_items_Forall2. apply map_items_Ok in Hmap. clear -Hmap.
    induction Hmap as [| x y perms perms' Hx _ IH]; constructor; [| done].
    by apply normalize_permission_idempotent with x. }
  assert (perms' <> []) as Hne.
  { intros ->. apply map_items_Ok in Hmap. inversion Hmap; subst.
    rewrite (has_permissions_array (VObj fields) (VObj rf) []) in Hguard;
      [discriminate | | reflexivity |]; cbn; by rewrite ?Hr, ?Hp. }
  assert (has_permissions v = Ok true) as Hguard'.
  { rewrite Hv.
    rewrite (has_permissions_array _ (VObj role') perms');
      [| cbn; by rewrite ?Hr', ?Hp' ..].
    f_equal. apply Z.ltb_lt. destruct perms'; [done | cbn; lia]. }
  pose proof (normalize_run _ _ _ Hr' Hp') as Hrun. rewrite Hmap' in Hrun.
  destruct Hrun as (ids' & Hids' & Hrun).
  assert (ids' = ids) as -> by congruence.
  rewrite (insert_id role' "permissions") in Hrun by assumption.
  rewrite (insert_id role' "permissionList") in Hrun by assumption.
  rewrite insert_insert_eq in Hrun. rewrite <- Hrole, <- Hv in Hrun.
  rewrite Hv in Hres', Hguard', Hrun.
  rewrite (GetInfo_normalized _ _ _ _ _ _ _ Hres' Hguard' Hrun). cbn.
  by rewrite Hv.
Qed.

(** *** Logout and the session lifecycle *)

(** X11: [Logout] never calls [reject] and calls [resolve] at most once,
    and the only cache key it can touch is [ACCESS_TOKEN], whatever the
    outcome of the network call. *)
Theorem Logout_never_rejects (logout : value -> api_outcome)
    (s : SessionState) (c : Storage.cache) :
  let w := Logout logout s c in
  (forall e, Rejected e ∉ settle_calls w)
  /\ (settle_calls w = [] \/ settle_calls w = [Resolved VUndef])
  /\ forall key, key <> ACCESS_TOKEN -> storage w !! key = c !! key.
Proof.
  cbn zeta. rewrite Logout_run.
  destruct (logout (token s)) as [response | err]; cbn.
  - repeat split; [| by right |].
    + intros e He. apply list_elem_of_singleton in He. discriminate.
    + intros key Hkey. unfold Storage.remove. by rewrite lookup_delete_ne.
  - repeat split; [| by left].
    intros e He. by apply not_elem_of_nil in He.
Qed.

(** X12: a successful [Logout] is idempotent: logging out again (the API
    is then called with the empty token) and succeeding leaves the state
    and the cache exactly as the first logout left them. *)
Theorem Logout_twice (logout : value -> api_outcome) (s : SessionState)
    (c : Storage.cache) (r1 r2 : value) :
  logout (token s) = Fulfilled r1 ->
  logout (VStr "") = Fulfilled r2 ->
  let w1 := Logout logout s c in
  let w2 := Logout logout (state w1) (storage w1) in
  state w2 = state w1 /\ storage w2 = storage w1
  /\ settle_calls w2 = [Resolved VUndef].
Proof.
  intros H1 H2. cbn zeta. rewrite (Logout_run logout s c), H1. cbn.
  rewrite Logout_run. cbn. rewrite H2. cbn. repeat split.
  unfold Storage.remove. by rewrite delete_delete_eq.
Qed.

(** X13: a successful [Login] followed by a successful [Logout], which
    hands the API the token [Login] committed, leaves the session as it was
    before the login but for [token] and [roles], both cleared, and leaves
    no cache entry under [ACCESS_TOKEN]; the rest of the cache is as
    before. *)
Theorem Login_then_Logout (login logout : value -> api_outcome) (now : Z)
    (userInfo : value) (s : SessionState) (c : Storage.cache)
    (response result tok r : value) :
  login userInfo = Fulfilled response ->
  get_member response "result" = Ok result ->
  get_member result "token" = Ok tok ->
  logout tok = Fulfilled r ->
  let w1 := Login login now userInfo s c in
  let w2 := Logout logout (state w1) (storage w1) in
  state w2 = {| token := VStr ""; name := name s; welcome := welcome s;
                avatar := avatar s; roles := VArr []; info := info s |}
  /\ storage w2 = delete ACCESS_TOKEN c
  /\ storage w2 !! ACCESS_TOKEN = None
  /\ settle_calls w2 = [Resolved VUndef].
Proof.
  intros Hlogin Hres Htok Hlogout. cbn zeta.
  rewrite Login_run, Hlogin, Hres, Htok. rewrite Logout_run. cbn.
  rewrite Hlogout. cbn. unfold Storage.remove, Storage.set.
  rewrite delete_insert_eq. repeat split. apply lookup_delete_eq.
Qed.

(** X14: the profile outlives the session.  After a [GetInfo] that
    resolved with [v] and a successful [Logout], [token] and [roles] are
    cleared but [info] still is [v], [name] and [avatar] still are those of
    [v], and [welcome] still is the greeting. *)
Theorem Logout_keeps_profile (logout : value -> api_outcome)
    (greeting : string) (s : SessionState) (c : Storage.cache)
    (response v r : value) :
  let w1 := GetInfo (Fulfilled response) greeting s c in
  promise_of (settle_calls w1) = Settled (Resolved v) ->
  logout (token s) = Fulfilled r ->
  let w2 := Logout logout (state w1) (storage w1) in
  token (state w2) = VStr "" /\ roles (state w2) = VArr []
  /\ info (state w2) = v
  /\ get_member v "name" = Ok (name (state w2))
  /\ get_member v "avatar" = Ok (avatar (state w2))
  /\ welcome (state w2) = VStr greeting.
Proof.
  intros w1 Hresolved Hlogout w2. subst w1 w2.
  destruct (GetInfo_resolved_inv _ _ _ _ _ Hresolved)
    as (response' & result & role & [= <-] & Hres & Hguard & Hnorm).
  destruct (normalize_inv _ _ _ Hnorm)
    as (fields & rf & perms & perms' & ids & _ & _ & _ & _ & _ & _ & Hv).
  rewrite Hv in Hnorm.
  rewrite (GetInfo_normalized _ _ _ _ _ _ _ Hres Hguard Hnorm).
  rewrite Logout_run. cbn. rewrite Hlogout. cbn. by rewrite Hv.
Qed.

(** *** Mutations *)

(** X15: mutations of different types write disjoint fields, so two
    commits of different types give the same state in either order; when
    one of them throws ([SET_NAME] on an undefined or null payload), both
    orders throw the same exception. *)
Theorem mutations_commute (m1 m2 : mutation) (s : SessionState)
    (payload1 payload2 : value) :
  m1 <> m2 ->
  (s1 ← mutations m1 s payload1; mutations m2 s1 payload2)
  = (s2 ← mutations m2 s payload2; mutations m1 s2 payload1).
Proof.
  intros Hne.
  destruct m1, m2; try done; cbn;
    repeat match goal with
           | |- context [get_member ?p ?k] => destruct (get_member p k); cbn
           end;
    reflexivity.
Qed.

End Properties.

(** *** Scenarios *)

Lemma Login_failure_witness :
  Login Samples.key (fun _ => Failed (Error "401")) 1000 (VStr "alice")
        initial_state ∅
  = World initial_state ∅ [Rejected (Error "401")] [].
Proof. apply Login_failure. reflexivity. Defined.

Lemma Login_success_witness :
  let w := Login Samples.key (fun _ => Fulfilled Samples.login_response) 1000
                 (VStr "alice") initial_state ∅ in
  storage w !! Samples.key = Some (Storage.Entry (VStr "T1") 604801000)
  /\ token (state w) = VStr "T1"
  /\ settle_calls w = [Resolved VUndef].
Proof.
  destruct (Login_success Samples.key (fun _ => Fulfilled Samples.login_response)
              1000 (VStr "alice") initial_state ∅ Samples.login_response
              (VObj {[ "token" := VStr "T1" ]}) "T1")
    as (_ & Hentry & _ & Hstate & Hcalls & _); try reflexivity.
  cbn zeta. rewrite Hstate. auto.
Defined.

(** C1, as the spec words it, fails when the network call fails: the token,
    the roles and the cache entry all survive and the promise stays
    pending. *)
Lemma Logout_network_failure_counterexample :
  let w := Logout Samples.key (fun _ => Failed (Error "network"))
                  Samples.logged_in Samples.logged_in_cache in
  token (state w) = VStr "T1"
  /\ promise_of (settle_calls w) = Pending
  /\ ~ (token (state w) = VStr "" /\ roles (state w) = VArr []
        /\ storage w !! Samples.key = None
        /\ promise_of (settle_calls w) = Settled (Resolved VUndef)).
Proof.
  cbn zeta. rewrite Logout_run. cbn.
  split; [reflexivity | split; [reflexivity |]].
  intros (Htoken & _). discriminate Htoken.
Qed.

Lemma GetInfo_rejects_without_permissions_witness :
  GetInfo Samples.no_coercion
          (Fulfilled (Samples.info_response (Samples.raw_role [])))
          "hello" Samples.logged_in Samples.logged_in_cache
  = World Samples.logged_in Samples.logged_in_cache
          [Rejected (Error "getInfo: roles must be a non-null array !")] []
  /\ GetInfo Samples.no_coercion (Fulfilled Samples.info_response_no_role)
             "hello" Samples.logged_in Samples.logged_in_cache
     = World Samples.logged_in Samples.logged_in_cache
             [Rejected (Error "getInfo: roles must be a non-null array !")] [].
Proof.
  split.
  - apply GetInfo_rejects_without_permissions
      with (result := VObj {[ "name" := VStr "alice";
                              "avatar" := VStr "/avatar.png";
                              "role" := Samples.raw_role [] ]})
           (role := Samples.raw_role []).
    + reflexivity.
    + reflexivity.
    + right. reflexivity.
  - apply GetInfo_rejects_without_permissions
      with (result := VObj {[ "name" := VStr "alice" ]}) (role := VUndef).
    + reflexivity.
    + reflexivity.
    + left. reflexivity.
Defined.

Lemma GetInfo_all_or_nothing_witness :
  let result := VObj {[ "name" := VStr "alice"; "avatar" := VStr "/avatar.png";
                        "role" := Samples.raw_role [Samples.permission_p1] ]} in
  let w := GetInfo Samples.no_coercion
             (Fulfilled (Samples.info_response
                           (Samples.raw_role [Samples.permission_p1])))
             "hello" initial_state ∅ in
  match normalize result with
  | Throw e => w = World initial_state ∅ [Rejected e] []
  | Ok (role', result') =>
      get_member result' "role" = Ok role'
      /\ (exists n a,
            get_member result' "name" = Ok n
            /\ get_member result' "avatar" = Ok a
            /\ state w = {| token := token initial_state; name := n;
                            welcome := VStr "hello"; avatar := a;
                            roles := role'; info := result' |})
      /\ storage w = ∅
      /\ settle_calls w = [Resolved result']
      /\ console w = []
  end.
Proof.
  apply GetInfo_all_or_nothing
    with (role := Samples.raw_role [Samples.permission_p1])
         (p := Samples.permission_p1) (ps := []);
    reflexivity.
Defined.

Lemma GetInfo_permissionList_witness :
  let w := GetInfo Samples.no_coercion
             (Fulfilled (Samples.info_response
                           (Samples.raw_role [Samples.permission_p1])))
             "hello" initial_state ∅ in
  exists result',
    promise_of (settle_calls w) = Settled (Resolved result')
    /\ exists (role' : gmap string value) (permissions ids : list value),
        roles (state w) = VObj role'
        /\ get_member result' "role" = Ok (VObj role')
        /\ role' !! "permissions" = Some (VArr permissions)
        /\ role' !! "permissionList" = Some (VArr ids)
        /\ map_items (fun permission => get_member permission "permissionId")
                     permissions = Ok ids
        /\ Forall2 (fun permission id =>
                      get_member permission "permissionId" = Ok id)
                   permissions ids.
Proof.
  cbn zeta. eexists. split; [reflexivity |].
  destruct (GetInfo_permissionList Samples.no_coercion) as [Hgeneral _].
  apply Hgeneral. reflexivity.
Defined.

Lemma GetInfo_rejects_on_missing_actionEntitySet_witness :
  let w := GetInfo Samples.no_coercion
             (Fulfilled (Samples.info_response
                (Samples.raw_role [Samples.permission_p1;
                                   Samples.permission_p2])))
             "hello" Samples.logged_in Samples.logged_in_cache in
  normalize_permission Samples.permission_p2
  = Throw (TypeError (NotAFunction "map"))
  /\ (exists e before q after,
        w = World Samples.logged_in Samples.logged_in_cache [Rejected e] []
        /\ [Samples.permission_p1; Samples.permission_p2]
           = before ++ q :: after
        /\ Forall (fun x => is_throw (normalize_permission x) = false) before
        /\ normalize_permission q = Throw e)
  /\ (Forall (fun x => is_throw (normalize_permission x) = false)
             [Samples.permission_p1] ->
      w = World Samples.logged_in Samples.logged_in_cache
                [Rejected (TypeError (NotAFunction "map"))] []).
Proof.
  apply (GetInfo_rejects_on_missing_actionEntitySet Samples.no_coercion
           "hello" Samples.logged_in Samples.logged_in_cache
           (Samples.info_response
              (Samples.raw_role [Samples.permission_p1;
                                 Samples.permission_p2]))
           (VObj {[ "name" := VStr "alice"; "avatar" := VStr "/avatar.png";
                    "role" := Samples.raw_role [Samples.permission_p1;
                                                Samples.permission_p2] ]})
           (Samples.raw_role [Samples.permission_p1; Samples.permission_p2])
           [Samples.permission_p1] []
           {[ "permissionId" := VStr "p2" ]});
    reflexivity.
Defined.

Lemma get_respects_expiry_witness :
  let c := Storage.set "k" (VStr "v") 5 ∅ in
  Storage.get 10 "k" c = (None, delete "k" c)
  /\ (Storage.get 10 "k" c).2 !! "k" = None
  /\ forall later, (Storage.get later "k" (Storage.get 10 "k" c).2).1 = None.
Proof.
  cbn zeta.
  destruct (get_respects_expiry 10 "k" (Storage.set "k" (VStr "v") 5 ∅))
    as (_ & _ & Hexpired & _).
  apply (Hexpired (Storage.Entry (VStr "v") 5)).
  - reflexivity.
  - cbn. lia.
Defined.

(** *** Further scenarios *)

Lemma Login_frame_witness :
  let w := Login Samples.key (fun _ => Fulfilled Samples.login_response) 1000
                 (VStr "alice") Samples.logged_in
                 (Storage.set "theme" (VStr "dark") 5000 ∅) in
  storage w !! "theme" = Some (Storage.Entry (VStr "dark") 5000).
Proof.
  cbn zeta.
  destruct (Login_frame Samples.key (fun _ => Fulfilled Samples.login_response)
              1000 (VStr "alice") Samples.logged_in
              (Storage.set "theme" (VStr "dark") 5000 ∅))
    as (_ & _ & _ & _ & _ & Hcache).
  rewrite Hcache; [reflexivity | discriminate].
Defined.

Lemma Login_response_without_result_witness :
  Login Samples.key (fun _ => Fulfilled (VObj ∅)) 1000 (VStr "alice")
        Samples.logged_in Samples.logged_in_cache
  = World Samples.logged_in Samples.logged_in_cache
          [Rejected (TypeError (NullishRead "token"))] [].
Proof.
  apply Login_response_without_result with (response := VObj ∅)
                                           (result := VUndef).
  - reflexivity.
  - reflexivity.
  - left. reflexivity.
Defined.

Lemma GetInfo_role_without_permissions_witness :
  GetInfo Samples.no_coercion
          (Fulfilled (Samples.info_response (VObj {[ "id" := VStr "admin" ]})))
          "hello" Samples.logged_in Samples.logged_in_cache
  = World Samples.logged_in Samples.logged_in_cache
          [Rejected (TypeError (NullishRead "length"))] [].
Proof.
  apply GetInfo_role_without_permissions
    with (result := VObj {[ "name" := VStr "alice";
                            "avatar" := VStr "/avatar.png";
                            "role" := VObj {[ "id" := VStr "admin" ]} ]})
         (permissions := VUndef) (rf := {[ "id" := VStr "admin" ]}).
  - reflexivity.
  - reflexivity.
  - reflexivity.
  - left. reflexivity.
Defined.

Lemma normalize_permission_spec_witness :
  exists entities actions,
    get_member Samples.permission_p1 "actionEntitySet" = Ok (VArr entities)
    /\ Forall2 (fun entity action => get_member entity "action" = Ok action)
               entities actions
    /\ VObj {[ "permissionId" := VStr "p1";
               "actionEntitySet" := VArr [VObj {[ "action" := VStr "read" ]}];
               "actionList" := VArr [VStr "read"] ]}
       = VObj (<["actionList" := VArr actions]>
                 (spread Samples.permission_p1)).
Proof.
  apply (proj1 (normalize_permission_spec Samples.permission_p1 _)).
  reflexivity.
Defined.

Lemma GetInfo_resolves_iff_witness :
  exists v,
    promise_of (settle_calls
                  (GetInfo Samples.no_coercion
                     (Fulfilled (Samples.info_response
                                   (Samples.raw_role [Samples.permission_p1])))
                     "hello" initial_state ∅))
    = Settled (Resolved v).
Proof.
  apply (proj2 (GetInfo_resolves_iff Samples.no_coercion "hello"
                  initial_state ∅ _)).
  exists {[ "name" := VStr "alice"; "avatar" := VStr "/avatar.png";
            "role" := Samples.raw_role [Samples.permission_p1] ]},
         {[ "permissions" := VArr [Samples.permission_p1] ]},
         [Samples.permission_p1].
  repeat split; try reflexivity; try discriminate.
  constructor; [| constructor].
  exists [VObj {[ "action" := VStr "read" ]}]. split; [reflexivity |].
  constructor; [| constructor]. split; discriminate.
Defined.

Lemma GetInfo_keeps_raw_fields_witness :
  let w := GetInfo Samples.no_coercion
             (Fulfilled (Samples.info_response
                (VObj {[ "id" := VStr "admin";
                         "permissions" := VArr [Samples.permission_p1] ]})))
             "hello" initial_state ∅ in
  exists v result raw,
    promise_of (settle_calls w) = Settled (Resolved v)
    /\ get_member result "role" = Ok raw
    /\ info (state w) = v
    /\ get_member v "role" = Ok (roles (state w))
    /\ (forall key, key <> "role" ->
          get_member v key = get_member result key)
    /\ (forall key, key <> "permissions" -> key <> "permissionList" ->
          get_member (roles (state w)) key = get_member raw key).
Proof.
  cbn zeta. eexists.
  edestruct (GetInfo_keeps_raw_fields Samples.no_coercion "hello"
               initial_state ∅
               (Samples.info_response
                  (VObj {[ "id" := VStr "admin";
                           "permissions" := VArr [Samples.permission_p1] ]})))
    as (result & raw & _ & H); [reflexivity |].
  exists result, raw. split; [reflexivity | exact H].
Defined.

Lemma GetInfo_permissions_pointwise_witness :
  let w := GetInfo Samples.no_coercion
             (Fulfilled (Samples.info_response
                           (Samples.raw_role [Samples.permission_p1])))
             "hello" initial_state ∅ in
  exists (permissions ids : list value),
    get_member (roles (state w)) "permissions" = Ok (VArr permissions)
    /\ get_member (roles (state w)) "permissionList" = Ok (VArr ids)
    /\ length permissions = 1%nat /\ length ids = 1%nat.
Proof.
  cbn zeta.
  edestruct (GetInfo_permissions_pointwise Samples.no_coercion "hello"
               initial_state ∅
               (Samples.info_response
                  (Samples.raw_role [Samples.permission_p1])))
    as (result & raw & rawPermissions & permissions & ids & Hres & Hraw
        & Hperms & Hp & Hl & _ & Hlen & Hlen'); [reflexivity |].
  exists permissions, ids.
  injection Hres as <-. injection Hraw as <-. injection Hperms as <-.
  auto.
Defined.

Lemma GetInfo_renormalizes_to_same_witness :
  let w := GetInfo Samples.no_coercion
             (Fulfilled (Samples.info_response
                           (Samples.raw_role [Samples.permission_p1])))
             "hello" initial_state ∅ in
  exists v,
    promise_of (settle_calls w) = Settled (Resolved v)
    /\ let w' := GetInfo Samples.no_coercion
                   (Fulfilled (VObj {[ "result" := v ]}))
                   "again" Samples.logged_in Samples.logged_in_cache in
       settle_calls w' = [Resolved v]
       /\ roles (state w') = roles (state w)
       /\ info (state w') = info (state w).
Proof.
  cbn zeta. eexists. split; [reflexivity |].
  apply (GetInfo_renormalizes_to_same Samples.no_coercion "hello" "again"
           initial_state Samples.logged_in ∅ Samples.logged_in_cache
           (Samples.info_response (Samples.raw_role [Samples.permission_p1])));
    reflexivity.
Defined.

Lemma Logout_never_rejects_witness :
  let w := Logout Samples.key (fun _ => Fulfilled VNull) Samples.logged_in
                  (Storage.set "theme" (VStr "dark") 5000
                               Samples.logged_in_cache) in
  storage w !! "theme" = Some (Storage.Entry (VStr "dark") 5000).
Proof.
  cbn zeta.
  destruct (Logout_never_rejects Samples.key (fun _ => Fulfilled VNull)
              Samples.logged_in
              (Storage.set "theme" (VStr "dark") 5000 Samples.logged_in_cache))
    as (_ & _ & Hcache).
  rewrite Hcache; [reflexivity | discriminate].
Defined.

Lemma Logout_twice_witness :
  let w1 := Logout Samples.key (fun _ => Fulfilled VNull) Samples.logged_in
                   Samples.logged_in_cache in
  let w2 := Logout Samples.key (fun _ => Fulfilled VNull) (state w1)
                   (storage w1) in
  state w2 = state w1 /\ storage w2 = storage w1
  /\ settle_calls w2 = [Resolved VUndef].
Proof.
  apply Logout_twice with (r1 := VNull) (r2 := VNull); reflexivity.
Defined.

Lemma Login_then_Logout_witness :
  let w1 := Login Samples.key (fun _ => Fulfilled Samples.login_response) 1000
                  (VStr "alice") initial_state ∅ in
  let w2 := Logout Samples.key (fun _ => Fulfilled VNull) (state w1)
                   (storage w1) in
  state w2 = initial_state
  /\ storage w2 = delete Samples.key ∅
  /\ storage w2 !! Samples.key = None
  /\ settle_calls w2 = [Resolved VUndef].
Proof.
  apply (Login_then_Logout Samples.key
           (fun _ => Fulfilled Samples.login_response)
           (fun _ => Fulfilled VNull) 1000 (VStr "alice") initial_state ∅
           Samples.login_response (VObj {[ "token" := VStr "T1" ]})
           (VStr "T1") VNull);
    reflexivity.
Defined.

Lemma Logout_keeps_profile_witness :
  let w1 := GetInfo Samples.no_coercion
              (Fulfilled (Samples.info_response
                            (Samples.raw_role [Samples.permission_p1])))
              "hello" Samples.logged_in Samples.logged_in_cache in
  let w2 := Logout Samples.key (fun _ => Fulfilled VNull) (state w1)
                   (storage w1) in
  exists v,
    token (state w2) = VStr "" /\ roles (state w2) = VArr []
    /\ info (state w2) = v
    /\ get_member v "name" = Ok (name (state w2))
    /\ get_member v "avatar" = Ok (avatar (state w2))
    /\ welcome (state w2) = VStr "hello".
Proof.
  cbn zeta. eexists.
  apply (Logout_keeps_profile Samples.key Samples.no_coercion
           (fun _ => Fulfilled VNull) "hello" Samples.logged_in
           Samples.logged_in_cache
           (Samples.info_response (Samples.raw_role [Samples.permission_p1]))
           _ VNull);
    reflexivity.
Defined.

Lemma mutations_commute_witness :
  (s1 ← mutations SET_TOKEN initial_state (VStr "T1");
   mutations SET_NAME s1 VNull)
  = (s2 ← mutations SET_NAME initial_state VNull;
     mutations SET_TOKEN s2 (VStr "T1")).
Proof. apply mutations_commute. discriminate. Defined.
